(** * TIVA-C lecture exercises: debounce, busy-wait delay and SysTick toggling

    A shallow embedding of the C programs of LESSON1, LESSON2, LESSON3,
    LESSON5 and LESSON6.  The target is a Cortex-M4 (ILP32): [unsigned int],
    [unsigned long] and the device registers are 32-bit words, modelled as
    [Z] with the wrap-around written out.  Every [main] ends in [while(1)];
    the embedding gives the configuration prefix as a function on the
    register file and the loop body as one step, driven by what the
    environment presents at each volatile read. *)

From Stdlib Require Import ZArith List Bool Lia.
Import ListNotations.
Local Open Scope Z_scope.

(** ** 32-bit unsigned words *)

Module Word.

Definition bits : Z := 32.
Definition modulus : Z := 2 ^ bits.

Definition wrap (x : Z) : Z := x mod modulus.

(** C's [~x] on a 32-bit unsigned operand. *)
Definition not32 (x : Z) : Z := wrap (Z.lnot x).

(** C's [x + 1] on a 32-bit unsigned operand (as in [i++]). *)
Definition incr (x : Z) : Z := wrap (x + 1).

Definition in_range (x : Z) : Prop := 0 <= x < modulus.

End Word.

(** ** The register file

    Modelled from the spec: the device header (TM4C123GH6PM.h / TM4C123.h)
    is not among the sources.  It declares [SYSCTL], [GPIOF] and [SysTick]
    as structures of volatile 32-bit registers; the record below has one
    field for each register the five programs touch. *)

Record regs : Type := mkRegs {
  SYSCTL_RCGCGPIO : Z;
  GPIOF_LOCK : Z;
  GPIOF_CR : Z;
  GPIOF_PUR : Z;
  GPIOF_DIR : Z;
  GPIOF_DEN : Z;
  GPIOF_DATA : Z;
  SysTick_LOAD : Z;
  SysTick_CTRL : Z;
  SysTick_VAL : Z
}.

Definition set_RCGCGPIO (v : Z) (r : regs) : regs :=
  mkRegs v (GPIOF_LOCK r) (GPIOF_CR r) (GPIOF_PUR r) (GPIOF_DIR r)
         (GPIOF_DEN r) (GPIOF_DATA r) (SysTick_LOAD r) (SysTick_CTRL r)
         (SysTick_VAL r).

Definition set_LOCK (v : Z) (r : regs) : regs :=
  mkRegs (SYSCTL_RCGCGPIO r) v (GPIOF_CR r) (GPIOF_PUR r) (GPIOF_DIR r)
         (GPIOF_DEN r) (GPIOF_DATA r) (SysTick_LOAD r) (SysTick_CTRL r)
         (SysTick_VAL r).

Definition set_CR (v : Z) (r : regs) : regs :=
  mkRegs (SYSCTL_RCGCGPIO r) (GPIOF_LOCK r) v (GPIOF_PUR r) (GPIOF_DIR r)
         (GPIOF_DEN r) (GPIOF_DATA r) (SysTick_LOAD r) (SysTick_CTRL r)
         (SysTick_VAL r).

Definition set_PUR (v : Z) (r : regs) : regs :=
  mkRegs (SYSCTL_RCGCGPIO r) (GPIOF_LOCK r) (GPIOF_CR r) v (GPIOF_DIR r)
         (GPIOF_DEN r) (GPIOF_DATA r) (SysTick_LOAD r) (SysTick_CTRL r)
         (SysTick_VAL r).

Definition set_DIR (v : Z) (r : regs) : regs :=
  mkRegs (SYSCTL_RCGCGPIO r) (GPIOF_LOCK r) (GPIOF_CR r) (GPIOF_PUR r) v
         (GPIOF_DEN r) (GPIOF_DATA r) (SysTick_LOAD r) (SysTick_CTRL r)
         (SysTick_VAL r).

Definition set_DEN (v : Z) (r : regs) : regs :=
  mkRegs (SYSCTL_RCGCGPIO r) (GPIOF_LOCK r) (GPIOF_CR r) (GPIOF_PUR r)
         (GPIOF_DIR r) v (GPIOF_DATA r) (SysTick_LOAD r) (SysTick_CTRL r)
         (SysTick_VAL r).

Definition set_DATA (v : Z) (r : regs) : regs :=
  mkRegs (SYSCTL_RCGCGPIO r) (GPIOF_LOCK r) (GPIOF_CR r) (GPIOF_PUR r)
         (GPIOF_DIR r) (GPIOF_DEN r) v (SysTick_LOAD r) (SysTick_CTRL r)
         (SysTick_VAL r).

Definition set_LOAD (v : Z) (r : regs) : regs :=
  mkRegs (SYSCTL_RCGCGPIO r) (GPIOF_LOCK r) (GPIOF_CR r) (GPIOF_PUR r)
         (GPIOF_DIR r) (GPIOF_DEN r) (GPIOF_DATA r) v (SysTick_CTRL r)
         (SysTick_VAL r).

Definition set_CTRL (v : Z) (r : regs) : regs :=
  mkRegs (SYSCTL_RCGCGPIO r) (GPIOF_LOCK r) (GPIOF_CR r) (GPIOF_PUR r)
         (GPIOF_DIR r) (GPIOF_DEN r) (GPIOF_DATA r) (SysTick_LOAD r) v
         (SysTick_VAL r).

Definition set_VAL (v : Z) (r : regs) : regs :=
  mkRegs (SYSCTL_RCGCGPIO r) (GPIOF_LOCK r) (GPIOF_CR r) (GPIOF_PUR r)
         (GPIOF_DIR r) (GPIOF_DEN r) (GPIOF_DATA r) (SysTick_LOAD r)
         (SysTick_CTRL r) v.

(** Reduction of the projections of a register file. *)
Ltac fields :=
  cbn [SYSCTL_RCGCGPIO GPIOF_LOCK GPIOF_CR GPIOF_PUR GPIOF_DIR GPIOF_DEN
       GPIOF_DATA SysTick_LOAD SysTick_CTRL SysTick_VAL].

(** Register file with every register at zero, used as the state the
    configuration code starts from in the worked examples. *)
Definition power_on : regs := mkRegs 0 0 0 0 0 0 0 0 0 0.

(** Two register files that agree on every register except, possibly,
    the data register. *)
Definition same_but_DATA (r r' : regs) : Prop :=
  SYSCTL_RCGCGPIO r' = SYSCTL_RCGCGPIO r /\
  GPIOF_LOCK r' = GPIOF_LOCK r /\
  GPIOF_CR r' = GPIOF_CR r /\
  GPIOF_PUR r' = GPIOF_PUR r /\
  GPIOF_DIR r' = GPIOF_DIR r /\
  GPIOF_DEN r' = GPIOF_DEN r /\
  SysTick_LOAD r' = SysTick_LOAD r /\
  SysTick_CTRL r' = SysTick_CTRL r /\
  SysTick_VAL r' = SysTick_VAL r.

(** ** The push button on PF4

    PF4 is an input with a pull-up: the pin reads high at rest and low
    while the button is pressed.  A read of [GPIOF->DATA] returns the
    stored word with bit 4 replaced by the level the pin has at that
    moment; the level is the environment's input to the programs. *)

Inductive level : Type := Low | High.

Definition PF4_mask : Z := 0x10.

Definition level_bit (l : level) : Z :=
  match l with
  | Low => 0
  | High => PF4_mask
  end.

Definition read_DATA (r : regs) (pf4 : level) : Z :=
  Z.lor (Z.ldiff (GPIOF_DATA r) PF4_mask) (level_bit pf4).

(** The three LEDs of the board, as bits of the data register. *)
Definition PF1 (r : regs) : bool := Z.testbit (GPIOF_DATA r) 1.
Definition PF2 (r : regs) : bool := Z.testbit (GPIOF_DATA r) 2.
Definition PF3 (r : regs) : bool := Z.testbit (GPIOF_DATA r) 3.

(** ** The counting loop shared by both [Delay] functions

    [for (i = 0; i < counter; i++) {}] on an unsigned 32-bit counter.
    [spin fuel counter i] runs the loop from the current value [i] and
    returns the value the counter has when the test fails; [None] means
    that [fuel] iterations were not enough to reach the exit. *)

Fixpoint spin (fuel : nat) (counter i : Z) : option Z :=
  match fuel with
  | O => None
  | S fuel' =>
      if i <? counter then spin fuel' counter (Word.incr i) else Some i
  end.

(** The values the loop counter takes, oldest first, up to the exit. *)
Fixpoint spin_trace (fuel : nat) (counter i : Z) : list Z :=
  match fuel with
  | O => []
  | S fuel' =>
      i :: (if i <? counter then spin_trace fuel' counter (Word.incr i)
            else [])
  end.

(** ** LESSON1: the blink delay *)

Module Lesson1.

Definition DELAY_VALUE : Z := 1000000.

(** [void Delay(void)]: the loop runs on the global [j], which is reset to
    0 on entry; the result is the value left in [j]. *)
Definition Delay (fuel : nat) : option Z := spin fuel DELAY_VALUE 0.

Definition GPIO_PORTF_CLK_EN : Z := 0x20.
Definition GPIO_PORTF_PIN1_EN : Z := 0x02.
Definition LED_ON1 : Z := 0x02.
Definition GPIO_PORTF_PIN2_EN : Z := 0x04.
Definition LED_ON2 : Z := 0x04.
Definition GPIO_PORTF_PIN3_EN : Z := 0x08.
Definition LED_ON3 : Z := 0x08.

(** The statements of [main] before the loop.  [SYSCTL_RCGCGPIO_R],
    [GPIO_PORTF_DIR_R] and [GPIO_PORTF_DEN_R] are the registers the other
    lessons reach through [SYSCTL] and [GPIOF]. *)
Definition main_init (r : regs) : regs :=
  let r := set_RCGCGPIO (Z.lor (SYSCTL_RCGCGPIO r) GPIO_PORTF_CLK_EN) r in
  let r := set_DIR (Z.lor (GPIOF_DIR r) GPIO_PORTF_PIN1_EN) r in
  let r := set_DEN (Z.lor (GPIOF_DEN r) GPIO_PORTF_PIN1_EN) r in
  let r := set_DIR (Z.lor (GPIOF_DIR r) GPIO_PORTF_PIN2_EN) r in
  let r := set_DEN (Z.lor (GPIOF_DEN r) GPIO_PORTF_PIN2_EN) r in
  let r := set_DIR (Z.lor (GPIOF_DIR r) GPIO_PORTF_PIN3_EN) r in
  set_DEN (Z.lor (GPIOF_DEN r) GPIO_PORTF_PIN3_EN) r.

(** [GPIO_PORTF_DATA_R &= mask] and [GPIO_PORTF_DATA_R |= mask]. *)
Definition and_DATA (mask : Z) (r : regs) : regs :=
  set_DATA (Z.land (GPIOF_DATA r) mask) r.

Definition or_DATA (mask : Z) (r : regs) : regs :=
  set_DATA (Z.lor (GPIOF_DATA r) mask) r.

(** The three groups of stores of the loop, each followed in [main] by a
    call of [Delay]. *)
Definition blink_LED1 (r : regs) : regs :=
  or_DATA LED_ON1 (and_DATA LED_ON2 (and_DATA LED_ON3 r)).

Definition blink_LED3 (r : regs) : regs :=
  or_DATA LED_ON3 (and_DATA LED_ON2 (and_DATA LED_ON1 r)).

Definition blink_LED2 (r : regs) : regs :=
  or_DATA LED_ON2 (and_DATA LED_ON1 (and_DATA LED_ON3 r)).

(** The state of the program: the registers and the global [j]. *)
Record machine : Type := mkMachine {
  io : regs;
  j : Z
}.

(** A call of [Delay] from [main]: the registers are untouched and [j]
    holds the value the loop left; [fuel] bounds the loop's iterations. *)
Definition call_Delay (fuel : nat) (m : machine) : option machine :=
  match Delay fuel return option machine with
  | None => None
  | Some v => Some (mkMachine (io m) v)
  end.

(** One iteration of [while(1)].  The last store of the third group is
    followed in the source by a comment opened with a single slash. *)
Definition loop_body (fuel : nat) (m : machine) : option machine :=
  match call_Delay fuel (mkMachine (blink_LED1 (io m)) (j m))
        return option machine with
  | None => None
  | Some m1 =>
      match call_Delay fuel (mkMachine (blink_LED3 (io m1)) (j m1))
            return option machine with
      | None => None
      | Some m2 => call_Delay fuel (mkMachine (blink_LED2 (io m2)) (j m2))
      end
  end.

End Lesson1.

(** ** LESSON2: the button mirrored on the red LED *)

Module Lesson2.

Definition main_init (r : regs) : regs :=
  let r := set_RCGCGPIO (Z.lor (SYSCTL_RCGCGPIO r) 0x20) r in
  let r := set_LOCK 0x4C4F434B r in
  let r := set_CR 0x01 r in
  let r := set_PUR (Z.lor (GPIOF_PUR r) 0x10) r in
  let r := set_DIR (Z.lor (GPIOF_DIR r) 0x02) r in
  set_DEN (Z.lor (GPIOF_DEN r) 0x12) r.

(** The expression written to the data register, from the value read. *)
Definition led_word (data : Z) : Z :=
  let state := Z.land data 0x10 in
  Z.shiftr (Word.not32 state) 3.

(** One iteration of [while(1)]: a single read of the data register, then
    the store. *)
Definition loop_body (pf4 : level) (r : regs) : regs :=
  set_DATA (led_word (read_DATA r pf4)) r.

(** The loop run over a finite sequence of button levels, one per
    iteration. *)
Fixpoint run (ins : list level) (r : regs) : regs :=
  match ins with
  | [] => r
  | l :: rest => run rest (loop_body l r)
  end.

End Lesson2.

(** ** LESSON3: the debounced button toggling the red LED *)

Module Lesson3.

Definition SYSTEM_CLOCK_FREQUENCY : Z := 16000000.

(** [#define DELAY_DEBOUNCE SYSTEM_CLOCK_FREQUENCY/1000], C's truncating
    division on [int]. *)
Definition DELAY_DEBOUNCE : Z := Z.quot SYSTEM_CLOCK_FREQUENCY 1000.

(** [void Delay(unsigned long counter)]: the loop runs on the local [i];
    the result is the value of [i] at the exit. *)
Definition Delay (fuel : nat) (counter : Z) : option Z := spin fuel counter 0.

Definition main_init (r : regs) : regs :=
  let r := set_RCGCGPIO (Z.lor (SYSCTL_RCGCGPIO r) 0x20) r in
  let r := set_LOCK 0x4C4F434B r in
  let r := set_CR 0x01 r in
  let r := set_PUR (Z.lor (GPIOF_PUR r) 0x10) r in
  let r := set_DIR (Z.lor (GPIOF_DIR r) 0x02) r in
  set_DEN (Z.lor (GPIOF_DEN r) 0x12) r.

(** The state the loop carries from one iteration to the next: the
    registers and the [static char flag]. *)
Record machine : Type := mkMachine {
  io : regs;
  flag : Z
}.

(** What the environment presents during one iteration: the level of PF4
    at the read on the first line of the loop, and its level once the
    delay has returned (the moment of the read inside [^=]). *)
Record sample : Type := mkSample {
  at_poll : level;
  after_delay : level
}.

(** Iterations granted to the call [Delay(DELAY_DEBOUNCE)]. *)
Definition Delay_budget : nat := S (Z.to_nat DELAY_DEBOUNCE).

(** One iteration of [while(1)].  [state] is assigned once, from the read
    on the first line, and every later test uses that value. *)
Definition loop_body (s : sample) (m : machine) : option machine :=
  let state := Z.land (read_DATA (io m) (at_poll s)) 0x10 in
  if state =? 0 then
    match Delay Delay_budget DELAY_DEBOUNCE return option machine with
    | None => None
    | Some _ =>
        if (flag m =? 0) && (state =? 0) then
          Some (mkMachine
                  (set_DATA (Z.lxor (read_DATA (io m) (after_delay s))
                                    (Z.shiftr (Word.not32 state) 3))
                            (io m))
                  1)
        else Some m
    end
  else Some (mkMachine (io m) 0).

(** The loop run over a finite sequence of samples. *)
Fixpoint run (ins : list sample) (m : machine) : option machine :=
  match ins with
  | [] => Some m
  | s :: rest =>
      match loop_body s m with
      | None => None
      | Some m' => run rest m'
      end
  end.

(** An iteration toggles the target pin when PF1 differs before and
    after it. *)
Definition toggled (m m' : machine) : bool := xorb (PF1 (io m)) (PF1 (io m')).

(** Number of iterations of the run over [ins] that toggle PF1. *)
Fixpoint toggles (ins : list sample) (m : machine) : option nat :=
  match ins with
  | [] => Some O
  | s :: rest =>
      match loop_body s m with
      | None => None
      | Some m' =>
          match toggles rest m' with
          | None => None
          | Some k => Some (Nat.b2n (toggled m m') + k)%nat
          end
      end
  end.

(** The button is down at the poll and still down after the delay. *)
Definition held (s : sample) : Prop :=
  at_poll s = Low /\ after_delay s = Low.

(** The button is at rest at the poll. *)
Definition released (s : sample) : Prop := at_poll s = High.

(** The state [main] enters the loop with, from the all-zero registers. *)
Definition boot : machine := mkMachine (main_init power_on) 0.

(** Reference count for the loop: the polls at which the button is seen
    down although the poll before saw it at rest.  [down] tells whether
    the poll before the sequence saw the button down. *)
Fixpoint falling_edges (down : bool) (ins : list sample) : nat :=
  match ins with
  | [] => O
  | s :: rest =>
      match at_poll s with
      | Low => ((if down then 0 else 1) + falling_edges true rest)%nat
      | High => falling_edges false rest
      end
  end.

(** Whether the latch is set. *)
Definition armed (m : machine) : bool := negb (flag m =? 0).

End Lesson3.

(** ** LESSON5: SysTick polled *)

Module Lesson5.

Definition COUNTFLAG : Z := 0x10000.

Definition main_init (r : regs) : regs :=
  let r := set_RCGCGPIO (Z.lor (SYSCTL_RCGCGPIO r) 0x20) r in
  let r := set_DIR (Z.lor (GPIOF_DIR r) 0x08) r in
  let r := set_DEN (Z.lor (GPIOF_DEN r) 0x08) r in
  let r := set_LOAD 15999999 r in
  let r := set_CTRL 5 r in
  set_VAL 0 r.

(** One iteration of [while(1)]; [ctrl] is the word the read of
    [SysTick->CTRL] returns. *)
Definition loop_body (ctrl : Z) (r : regs) : regs :=
  if Z.land ctrl COUNTFLAG =? 0 then r
  else set_DATA (Z.lxor (GPIOF_DATA r) 8) r.

Fixpoint run (reads : list Z) (r : regs) : regs :=
  match reads with
  | [] => r
  | c :: rest => run rest (loop_body c r)
  end.

(** Number of reads of [SysTick->CTRL] that show the count flag. *)
Definition flagged (reads : list Z) : nat :=
  length (filter (fun c => negb (Z.land c COUNTFLAG =? 0)) reads).

End Lesson5.

(** ** LESSON6: SysTick interrupt *)

Module Lesson6.

Definition main_init (r : regs) : regs :=
  let r := set_RCGCGPIO (Z.lor (SYSCTL_RCGCGPIO r) 0x20) r in
  let r := set_DIR (Z.lor (GPIOF_DIR r) 0x08) r in
  let r := set_DEN (Z.lor (GPIOF_DEN r) 0x08) r in
  let r := set_LOAD 15999999 r in
  let r := set_CTRL 7 r in
  set_VAL 0 r.

(** [void SysTick_Handler(void)]. *)
Definition SysTick_Handler (r : regs) : regs :=
  set_DATA (Z.lxor (GPIOF_DATA r) 8) r.

(** The body of [while(1)] in [main] is empty. *)
Definition loop_body (r : regs) : regs := r.

(** [n] notifications, each served by one run of the handler. *)
Fixpoint notified (n : nat) (r : regs) : regs :=
  match n with
  | O => r
  | S n' => notified n' (SysTick_Handler r)
  end.

(** Core clock ticks between two notifications: the counter reloads
    [SysTick->LOAD] and counts it down to zero. *)
Definition period_ticks (r : regs) : Z := SysTick_LOAD r + 1.

End Lesson6.

(** * Properties *)

(** ** Words and the data register *)

Lemma wrap_small (x : Z) : Word.in_range x -> Word.wrap x = x.
Proof.
  unfold Word.in_range, Word.wrap. intros H. now apply Z.mod_small.
Qed.

Lemma incr_below (i counter : Z) :
  0 <= i -> i < counter -> counter < Word.modulus -> Word.incr i = i + 1.
Proof.
  intros H0 H1 H2. unfold Word.incr. apply wrap_small.
  unfold Word.in_range. lia.
Qed.

Lemma level_bit_zero (l : level) : (level_bit l =? 0) = match l with Low => true | High => false end.
Proof. destruct l; reflexivity. Qed.

Lemma testbit_PF4_mask (n : Z) : Z.testbit PF4_mask n = (4 =? n).
Proof.
  destruct (Z_lt_le_dec n 0) as [Hneg | Hpos].
  - rewrite Z.testbit_neg_r by assumption. symmetry. apply Z.eqb_neq. lia.
  - change PF4_mask with (2 ^ 4). apply Z.pow2_bits_eqb. lia.
Qed.

Lemma testbit_level_bit (l : level) (n : Z) :
  Z.testbit (level_bit l) n =
  match l with Low => false | High => (4 =? n) end.
Proof.
  destruct l; simpl level_bit.
  - apply Z.bits_0.
  - apply testbit_PF4_mask.
Qed.

(** Bit 4 of a read is the pin, every other bit is the stored one. *)
Lemma testbit_read_DATA (r : regs) (l : level) (n : Z) :
  Z.testbit (read_DATA r l) n =
  if 4 =? n then match l with Low => false | High => true end
  else Z.testbit (GPIOF_DATA r) n.
Proof.
  unfold read_DATA.
  rewrite Z.lor_spec, Z.ldiff_spec, testbit_level_bit, testbit_PF4_mask.
  destruct (4 =? n), l; simpl;
    rewrite ?andb_false_r, ?andb_true_r, ?orb_false_r, ?orb_true_r;
    reflexivity.
Qed.

(** The masked read [GPIOF->DATA & 0x10] is the pin level alone. *)
Lemma button_state (r : regs) (l : level) :
  Z.land (read_DATA r l) 0x10 = level_bit l.
Proof.
  apply Z.bits_inj'. intros n _.
  rewrite Z.land_spec, testbit_read_DATA, testbit_level_bit.
  change 0x10 with PF4_mask. rewrite testbit_PF4_mask.
  destruct (4 =? n), l; simpl; rewrite ?andb_false_r; reflexivity.
Qed.

(** The mask of the toggle, when the button reads pressed. *)
Lemma toggle_mask_pressed : Z.shiftr (Word.not32 0) 3 = 0x1FFFFFFF.
Proof. reflexivity. Qed.

Lemma toggle_mask_bits (n : Z) :
  Z.testbit 0x1FFFFFFF n = (0 <=? n) && (n <? 29).
Proof.
  destruct (Z_lt_le_dec n 0) as [Hneg | Hpos].
  - rewrite Z.testbit_neg_r by assumption.
    destruct (Z.leb_spec 0 n); [lia | reflexivity].
  - change 0x1FFFFFFF with (Z.ones 29).
    destruct (Z.ltb_spec n 29).
    + rewrite Z.ones_spec_low by lia.
      destruct (Z.leb_spec 0 n); [reflexivity | lia].
    + rewrite Z.ones_spec_high by lia. now rewrite andb_false_r.
Qed.

Lemma log2_in_range (a : Z) : Word.in_range a -> Z.log2 a < Word.bits.
Proof.
  unfold Word.in_range, Word.modulus, Word.bits. intros [H0 H1].
  destruct (Z.eq_dec a 0) as [-> | NE]; [reflexivity |].
  apply Z.log2_lt_pow2; lia.
Qed.

Lemma in_range_log2 (a : Z) : 0 <= a -> Z.log2 a < Word.bits -> Word.in_range a.
Proof.
  unfold Word.in_range, Word.modulus, Word.bits. intros H0 Hl.
  split; [assumption |].
  destruct (Z.eq_dec a 0) as [-> | NE]; [reflexivity |].
  apply Z.log2_lt_pow2; lia.
Qed.

Lemma xor_in_range (a b : Z) :
  Word.in_range a -> Word.in_range b -> Word.in_range (Z.lxor a b).
Proof.
  intros Ha Hb.
  pose proof (log2_in_range a Ha). pose proof (log2_in_range b Hb).
  destruct Ha as [Ha0 _], Hb as [Hb0 _].
  apply in_range_log2.
  - apply Z.lxor_nonneg. tauto.
  - pose proof (Z.log2_lxor a b Ha0 Hb0). lia.
Qed.

Lemma lor_in_range (a b : Z) :
  Word.in_range a -> Word.in_range b -> Word.in_range (Z.lor a b).
Proof.
  intros Ha Hb.
  pose proof (log2_in_range a Ha). pose proof (log2_in_range b Hb).
  destruct Ha as [Ha0 _], Hb as [Hb0 _].
  apply in_range_log2.
  - apply Z.lor_nonneg. tauto.
  - rewrite (Z.log2_lor a b Ha0 Hb0). lia.
Qed.

Lemma read_DATA_in_range (r : regs) (l : level) :
  Word.in_range (GPIOF_DATA r) -> Word.in_range (read_DATA r l).
Proof.
  intros Hr. unfold read_DATA. apply lor_in_range.
  - assert (H0 : 0 <= Z.ldiff (GPIOF_DATA r) PF4_mask).
    { apply Z.ldiff_nonneg. left. apply Hr. }
    apply in_range_log2; [exact H0 |].
    destruct (Z.eq_dec (Z.ldiff (GPIOF_DATA r) PF4_mask) 0) as [E | NE].
    + rewrite E. reflexivity.
    + pose proof (Z.bit_log2 (Z.ldiff (GPIOF_DATA r) PF4_mask)) as Hb.
      rewrite Z.ldiff_spec in Hb.
      destruct (Z_lt_le_dec (Z.log2 (Z.ldiff (GPIOF_DATA r) PF4_mask))
                            Word.bits) as [Hlt | Hge]; [exact Hlt |].
      rewrite (Z.bits_above_log2 (GPIOF_DATA r)) in Hb.
      * simpl in Hb. assert (false = true) by (apply Hb; lia). discriminate.
      * apply Hr.
      * pose proof (log2_in_range _ Hr). lia.
  - destruct l; unfold Word.in_range, Word.modulus, Word.bits, level_bit, PF4_mask; lia.
Qed.

(** ** The counting loop *)

Lemma spin_reaches (fuel : nat) :
  forall counter i,
    0 <= i <= counter -> counter < Word.modulus ->
    (Z.to_nat (counter - i) < fuel)%nat ->
    spin fuel counter i = Some counter.
Proof.
  induction fuel as [| fuel IH]; intros counter i Hi Hc Hf.
  - lia.
  - simpl. destruct (Z.ltb_spec i counter) as [Hlt | Hge].
    + rewrite (incr_below i counter) by lia.
      apply IH; lia.
    + f_equal. lia.
Qed.

Lemma spin_trace_counts (fuel : nat) :
  forall counter i,
    0 <= i <= counter -> counter < Word.modulus ->
    (Z.to_nat (counter - i) < fuel)%nat ->
    spin_trace fuel counter i =
    map Z.of_nat (seq (Z.to_nat i) (S (Z.to_nat (counter - i)))).
Proof.
  induction fuel as [| fuel IH]; intros counter i Hi Hc Hf.
  - lia.
  - cbn [spin_trace seq map]. rewrite Z2Nat.id by lia. f_equal.
    destruct (Z.ltb_spec i counter) as [Hlt | Hge].
    + rewrite (incr_below i counter) by lia.
      rewrite IH by lia.
      replace (Z.to_nat (i + 1)) with (S (Z.to_nat i)) by lia.
      replace (Z.to_nat (counter - i)) with (S (Z.to_nat (counter - (i + 1)))) by lia.
      reflexivity.
    + replace (Z.to_nat (counter - i)) with O by lia. reflexivity.
Qed.

(** ** LESSON3: the three ways through the loop body *)

Section Debounce.

Import Lesson3.

Lemma DELAY_DEBOUNCE_value : DELAY_DEBOUNCE = 16000.
Proof. reflexivity. Qed.

Lemma Delay_debounce_returns :
  Delay Delay_budget DELAY_DEBOUNCE = Some DELAY_DEBOUNCE.
Proof.
  unfold Delay, Delay_budget. rewrite DELAY_DEBOUNCE_value.
  apply spin_reaches; unfold Word.modulus, Word.bits; lia.
Qed.

(** Button at rest: the latch is cleared, the registers are untouched. *)
Lemma loop_body_released (s : sample) (m : machine) :
  at_poll s = High -> loop_body s m = Some (mkMachine (io m) 0).
Proof.
  intros H. unfold loop_body. cbv zeta. rewrite button_state, H.
  reflexivity.
Qed.

(** Button down with the latch set: nothing changes. *)
Lemma loop_body_latched (s : sample) (m : machine) :
  at_poll s = Low -> flag m <> 0 -> loop_body s m = Some m.
Proof.
  intros H Hf. unfold loop_body. cbv zeta. rewrite button_state, H.
  change (level_bit Low =? 0) with true. cbv iota.
  rewrite Delay_debounce_returns.
  apply Z.eqb_neq in Hf. rewrite Hf. reflexivity.
Qed.

(** Button down with the latch clear: the store of [^=] and [flag = 1]. *)
Lemma loop_body_fires (s : sample) (m : machine) :
  at_poll s = Low -> flag m = 0 ->
  loop_body s m =
  Some (mkMachine
          (set_DATA (Z.lxor (read_DATA (io m) (after_delay s)) 0x1FFFFFFF)
                    (io m))
          1).
Proof.
  intros H Hf. unfold loop_body. cbv zeta. rewrite button_state, H.
  change (level_bit Low =? 0) with true. cbv iota.
  rewrite Delay_debounce_returns, Hf.
  change (level_bit Low) with 0. rewrite toggle_mask_pressed.
  reflexivity.
Qed.

(** Every iteration returns. *)
Lemma loop_body_total (s : sample) (m : machine) :
  exists m', loop_body s m = Some m'.
Proof.
  destruct (at_poll s) eqn:E.
  - destruct (Z.eq_dec (flag m) 0) as [Hf | Hf].
    + eexists. now apply loop_body_fires.
    + eexists. now apply loop_body_latched.
  - eexists. now apply loop_body_released.
Qed.

Lemma fired_PF1 (r : regs) (l : level) :
  PF1 (set_DATA (Z.lxor (read_DATA r l) 0x1FFFFFFF) r) = negb (PF1 r).
Proof.
  unfold PF1. cbn [GPIOF_DATA set_DATA].
  rewrite Z.lxor_spec, testbit_read_DATA.
  change (4 =? 1) with false. cbv iota.
  change (Z.testbit 0x1FFFFFFF 1) with true.
  now rewrite xorb_true_r.
Qed.

Lemma toggled_same (m m' : machine) : io m' = io m -> toggled m m' = false.
Proof. intros E. unfold toggled. rewrite E. apply xorb_nilpotent. Qed.

Lemma run_app (a b : list sample) :
  forall m m', run a m = Some m' -> run (a ++ b) m = run b m'.
Proof.
  induction a as [| s a IH]; intros m m' H; simpl in *.
  - now inversion H.
  - destruct (loop_body s m) as [m1 |]; [now apply IH | discriminate].
Qed.

Lemma toggles_app (a b : list sample) :
  forall m m' k,
    run a m = Some m' -> toggles a m = Some k ->
    toggles (a ++ b) m = option_map (Nat.add k) (toggles b m').
Proof.
  induction a as [| s a IH]; intros m m' k Hr Ht; simpl in *.
  - inversion Hr; inversion Ht; subst. now destruct (toggles b m').
  - destruct (loop_body s m) as [m1 |]; [| discriminate].
    destruct (toggles a m1) as [k1 |] eqn:E1; [| discriminate].
    inversion Ht; subst k. rewrite (IH m1 m' k1 Hr E1).
    destruct (toggles b m'); simpl; [f_equal; lia | reflexivity].
Qed.

(** While the button stays down and the latch is set, the machine does
    not move. *)
Lemma latch_holds (ins : list sample) :
  forall m,
    flag m <> 0 -> Forall (fun s => at_poll s = Low) ins ->
    run ins m = Some m /\ toggles ins m = Some O.
Proof.
  induction ins as [| s ins IH]; intros m Hf Hall; simpl.
  - split; reflexivity.
  - inversion Hall as [| ? ? Hs Hrest]; subst.
    rewrite (loop_body_latched s m Hs Hf).
    destruct (IH m Hf Hrest) as [Hr Ht]. rewrite Hr, Ht.
    rewrite toggled_same by reflexivity. split; reflexivity.
Qed.

(** A press seen with the latch clear: one toggle at the first poll, none
    after it. *)
Lemma press_fires_once (s : sample) (ins : list sample) (m : machine) :
  flag m = 0 -> Forall (fun s => at_poll s = Low) (s :: ins) ->
  let m' := mkMachine
              (set_DATA (Z.lxor (read_DATA (io m) (after_delay s)) 0x1FFFFFFF)
                        (io m))
              1 in
  run (s :: ins) m = Some m' /\ toggles (s :: ins) m = Some 1%nat.
Proof.
  intros Hf Hall m'. inversion Hall as [| ? ? Hs Hrest]; subst.
  cbn [run toggles]. rewrite (loop_body_fires s m Hs Hf). fold m'.
  assert (Hf' : flag m' <> 0) by (cbn; lia).
  destruct (latch_holds ins m' Hf' Hrest) as [Hr Ht]. rewrite Hr, Ht.
  split; [reflexivity |].
  unfold toggled. cbn [io m']. rewrite fired_PF1.
  now destruct (PF1 (io m)).
Qed.

(** Polls with the button at rest leave the registers alone and clear the
    latch. *)
Lemma release_clears (s : sample) (ins : list sample) :
  forall m,
    Forall released (s :: ins) ->
    run (s :: ins) m = Some (mkMachine (io m) 0) /\
    toggles (s :: ins) m = Some O.
Proof.
  revert s. induction ins as [| s' ins IH]; intros s m Hall;
    inversion Hall as [| ? ? Hs Hrest]; subst.
  - cbn [run toggles]. rewrite (loop_body_released s m Hs).
    rewrite toggled_same by reflexivity. split; reflexivity.
  - change (run (s :: s' :: ins) m) with
      (match loop_body s m with
       | None => None | Some m1 => run (s' :: ins) m1 end).
    change (toggles (s :: s' :: ins) m) with
      (match loop_body s m with
       | None => None
       | Some m1 =>
           match toggles (s' :: ins) m1 with
           | None => None
           | Some k => Some (Nat.b2n (toggled m m1) + k)%nat
           end
       end).
    rewrite (loop_body_released s m Hs).
    destruct (IH s' (mkMachine (io m) 0) Hrest) as [Hr Ht].
    rewrite Hr, Ht. rewrite toggled_same by reflexivity.
    split; reflexivity.
Qed.

Lemma held_pressed (ins : list sample) :
  Forall held ins -> Forall (fun s => at_poll s = Low) ins.
Proof.
  intros H. eapply Forall_impl; [| exact H]. intros s [Hs _]. exact Hs.
Qed.

(** The data register stays a 32-bit word, so the exclusive or of the
    store needs no wrap-around. *)
Lemma loop_body_in_range (s : sample) (m m' : machine) :
  Word.in_range (GPIOF_DATA (io m)) ->
  loop_body s m = Some m' -> Word.in_range (GPIOF_DATA (io m')).
Proof.
  intros Hr H. destruct (at_poll s) eqn:E.
  - destruct (Z.eq_dec (flag m) 0) as [Hf | Hf].
    + rewrite (loop_body_fires s m E Hf) in H. inversion H; subst.
      cbn [io GPIOF_DATA set_DATA]. apply xor_in_range.
      * now apply read_DATA_in_range.
      * unfold Word.in_range, Word.modulus, Word.bits. lia.
    + rewrite (loop_body_latched s m E Hf) in H. now inversion H; subst.
  - rewrite (loop_body_released s m E) in H. now inversion H; subst.
Qed.

End Debounce.

(** ** LESSON3: the claims on the debounce loop *)

Section DebounceClaims.

Import Lesson3.

(** C1 (single-edge property).  For one physical press, that is a
    non-empty sequence of polls at each of which the button is down at the
    first read and still down after the debounce delay, started with the
    latch clear, the loop toggles PF1 exactly once: the run returns, the
    count of toggling iterations is 1, PF1 ends inverted and [flag] ends
    at 1; and for as long as the button stays down after that, no further
    iteration toggles the pin. *)
Theorem single_edge_per_press (m : machine) (ins : list sample) :
  flag m = 0 -> ins <> [] -> Forall held ins ->
  toggles ins m = Some 1%nat /\
  exists m',
    run ins m = Some m' /\
    flag m' = 1 /\
    PF1 (io m') = negb (PF1 (io m)) /\
    forall more, Forall held more ->
      run more m' = Some m' /\ toggles (ins ++ more) m = Some 1%nat.
Proof.
  intros Hf Hne Hall. destruct ins as [| s ins]; [congruence |].
  pose proof (held_pressed _ Hall) as Hp.
  destruct (press_fires_once s ins m Hf Hp) as [Hr Ht].
  split; [exact Ht |].
  eexists. split; [exact Hr |]. cbn [flag io].
  split; [reflexivity |]. split; [apply fired_PF1 |].
  intros more Hmore.
  match type of Hr with _ = Some ?x => set (m' := x) in * end.
  assert (Hf' : flag m' <> 0) by (cbn; lia).
  destruct (latch_holds more m' Hf' (held_pressed _ Hmore)) as [Hr' Ht'].
  split; [exact Hr' |].
  rewrite (toggles_app (s :: ins) more m m' 1%nat Hr Ht), Ht'.
  reflexivity.
Qed.

(** Three polls of a held button, from the state [main] enters the loop
    with. *)
Lemma single_edge_per_press_witness :
  flag boot = 0 /\
  toggles [mkSample Low Low; mkSample Low Low; mkSample Low Low] boot
  = Some 1%nat.
Proof.
  split; [reflexivity |].
  apply (single_edge_per_press boot
           [mkSample Low Low; mkSample Low Low; mkSample Low Low]).
  - reflexivity.
  - discriminate.
  - repeat constructor.
Defined.

(** C3 (re-arm property).  A poll that reads the button at rest returns
    with [flag] at 0 and the registers untouched, whatever the state
    before it.  Consequently a press, a release and a second press (each
    a non-empty sequence of polls), started with the latch clear, give
    one toggle up to the end of the release and exactly one more for the
    second press. *)
Theorem rearm_after_release (m : machine) (press1 release press2 : list sample) :
  flag m = 0 ->
  press1 <> [] -> release <> [] -> press2 <> [] ->
  Forall held press1 -> Forall released release -> Forall held press2 ->
  (forall s m0, released s ->
     exists m1, loop_body s m0 = Some m1 /\ flag m1 = 0 /\ io m1 = io m0) /\
  toggles (press1 ++ release) m = Some 1%nat /\
  toggles (press1 ++ release ++ press2) m = Some 2%nat.
Proof.
  intros Hf H1 H2 H3 A1 A2 A3.
  split.
  { intros s m0 Hs. eexists. split; [now apply loop_body_released |].
    split; reflexivity. }
  destruct press1 as [| s1 p1]; [congruence |].
  destruct release as [| s2 p2]; [congruence |].
  destruct press2 as [| s3 p3]; [congruence |].
  destruct (press_fires_once s1 p1 m Hf (held_pressed _ A1)) as [Hr1 Ht1].
  match type of Hr1 with _ = Some ?x => set (m1 := x) in * end.
  destruct (release_clears s2 p2 m1 A2) as [Hr2 Ht2].
  set (m2 := mkMachine (io m1) 0) in *.
  assert (Hf2 : flag m2 = 0) by reflexivity.
  destruct (press_fires_once s3 p3 m2 Hf2 (held_pressed _ A3)) as [Hr3 Ht3].
  split.
  - rewrite (toggles_app _ (s2 :: p2) m m1 1%nat Hr1 Ht1), Ht2. reflexivity.
  - rewrite (toggles_app _ ((s2 :: p2) ++ s3 :: p3) m m1 1%nat Hr1 Ht1).
    rewrite (toggles_app _ (s3 :: p3) m1 m2 O Hr2 Ht2), Ht3. reflexivity.
Qed.

(** Two polls of a press, one poll at rest, three polls of a second
    press. *)
Lemma rearm_after_release_witness :
  toggles ([mkSample Low Low; mkSample Low Low] ++ [mkSample High High])
          boot = Some 1%nat /\
  toggles ([mkSample Low Low; mkSample Low Low] ++ [mkSample High High]
             ++ [mkSample Low Low; mkSample Low Low; mkSample Low Low])
          boot = Some 2%nat.
Proof.
  apply (rearm_after_release boot
           [mkSample Low Low; mkSample Low Low]
           [mkSample High High]
           [mkSample Low Low; mkSample Low Low; mkSample Low Low]).
  - reflexivity.
  - discriminate.
  - discriminate.
  - discriminate.
  - repeat constructor.
  - repeat constructor.
  - repeat constructor.
Defined.

(** With the latch clear and the button down at the poll, the iteration
    toggles PF1 and sets the latch whatever the level after the delay. *)
Lemma fires_whatever_follows (s : sample) (m : machine) :
  flag m = 0 -> at_poll s = Low ->
  exists m', loop_body s m = Some m' /\ toggled m m' = true /\ flag m' = 1.
Proof.
  intros Hf Hs. eexists. split; [now apply loop_body_fires |].
  split; [| reflexivity].
  unfold toggled. cbn [io]. rewrite fired_PF1. now destruct (PF1 (io m)).
Qed.

(** C2 (bounce rejection), evaluated at a bounce: button down at the
    poll, back at rest when the delay returns, latch clear.  The loop
    body has no second read before its test, so the iteration toggles PF1
    (the data register goes from 0 to 0x1FFFFFEF) and leaves [flag] at 1. *)
Theorem bounce_still_toggles :
  loop_body (mkSample Low High) boot
  = Some (mkMachine (set_DATA 0x1FFFFFEF (io boot)) 1) /\
  toggles [mkSample Low High] boot = Some 1%nat /\
  PF1 (io boot) = false /\
  PF1 (set_DATA 0x1FFFFFEF (io boot)) = true /\
  flag boot = 0.
Proof. vm_compute. repeat split; reflexivity. Qed.

(** The store of the edge event inverts bits 0 to 28 of the word it read
    and leaves bits 29 to 31. *)
Lemma edge_event_bits (s : sample) (m m' : machine) (n : Z) :
  flag m = 0 -> at_poll s = Low -> loop_body s m = Some m' ->
  Z.testbit (GPIOF_DATA (io m')) n =
  xorb (Z.testbit (read_DATA (io m) (after_delay s)) n)
       ((0 <=? n) && (n <? 29)).
Proof.
  intros Hf Hs H. rewrite (loop_body_fires s m Hs Hf) in H.
  inversion H; subst. cbn [io GPIOF_DATA set_DATA].
  now rewrite Z.lxor_spec, toggle_mask_bits.
Qed.

(** C6 (edge-event frame), evaluated at a press from the state [main]
    enters the loop with: the store is an exclusive or with 0x1FFFFFFF,
    so the data register goes from 0 to 0x1FFFFFFF and PF2 and PF3 are
    inverted together with PF1. *)
Theorem edge_event_inverts_other_bits :
  loop_body (mkSample Low Low) boot
  = Some (mkMachine (set_DATA 0x1FFFFFFF (io boot)) 1) /\
  GPIOF_DATA (io boot) = 0 /\
  PF2 (io boot) = false /\ PF2 (set_DATA 0x1FFFFFFF (io boot)) = true /\
  PF3 (io boot) = false /\ PF3 (set_DATA 0x1FFFFFFF (io boot)) = true.
Proof. vm_compute. repeat split; reflexivity. Qed.

(** C7, as the claim has it: the window is not 1000 iterations. *)
Lemma debounce_window_not_1000 : DELAY_DEBOUNCE <> 1000.
Proof. discriminate. Qed.

(** C7 (debounce window), amended.  The window is
    [SYSTEM_CLOCK_FREQUENCY/1000]; at the 16 MHz system clock that is
    16000 iterations, the number of clock ticks in one millisecond, and
    the call [Delay(DELAY_DEBOUNCE)] of the loop returns after counting
    to 16000. *)
Theorem debounce_window_iterations :
  SYSTEM_CLOCK_FREQUENCY = 16000000 /\
  DELAY_DEBOUNCE = Z.quot SYSTEM_CLOCK_FREQUENCY 1000 /\
  DELAY_DEBOUNCE = 16000 /\
  DELAY_DEBOUNCE * 1000 = SYSTEM_CLOCK_FREQUENCY /\
  Delay Delay_budget DELAY_DEBOUNCE = Some 16000.
Proof.
  split; [reflexivity |]. split; [reflexivity |]. split; [reflexivity |].
  split; [reflexivity |]. exact Delay_debounce_returns.
Qed.

End DebounceClaims.

(** ** The busy-wait delay *)

(** C8 (termination of the busy-wait delay).  For every iteration count
    an [unsigned long] can hold, [Delay(counter)] of LESSON3 returns: any
    budget above [counter] iterations reaches the exit with the loop
    counter equal to [counter], and on the way the counter takes the
    values 0, 1, ..., [counter] in increasing order, never wrapping.
    [Delay()] of LESSON1 returns likewise, leaving [j] at [DELAY_VALUE]. *)
Theorem Delay_terminates (counter : Z) :
  Word.in_range counter ->
  (forall fuel, (Z.to_nat counter < fuel)%nat ->
     Lesson3.Delay fuel counter = Some counter /\
     spin_trace fuel counter 0
     = map Z.of_nat (seq 0 (S (Z.to_nat counter)))) /\
  (forall fuel, (Z.to_nat Lesson1.DELAY_VALUE < fuel)%nat ->
     Lesson1.Delay fuel = Some Lesson1.DELAY_VALUE).
Proof.
  intros [H0 H1]. split.
  - intros fuel Hf. split.
    + unfold Lesson3.Delay. apply spin_reaches; lia.
    + rewrite spin_trace_counts by lia.
      now rewrite Z.sub_0_r.
  - intros fuel Hf. unfold Lesson1.Delay, Lesson1.DELAY_VALUE in *.
    apply spin_reaches; unfold Word.modulus, Word.bits; lia.
Qed.

(** [Delay(3)] with a budget of four iterations. *)
Lemma Delay_terminates_witness :
  Word.in_range 3 /\
  Lesson3.Delay 4%nat 3 = Some 3 /\ spin_trace 4%nat 3 0 = [0; 1; 2; 3].
Proof.
  assert (H : Word.in_range 3)
    by (unfold Word.in_range, Word.modulus, Word.bits; lia).
  split; [exact H |].
  refine (proj1 (Delay_terminates 3 H) 4%nat _).
  simpl. lia.
Defined.

(** ** LESSON6: the SysTick handler *)

Section Interrupt.

Import Lesson6.

Lemma testbit_8 (n : Z) : Z.testbit 8 n = (n =? 3).
Proof.
  destruct (Z_lt_le_dec n 0) as [Hneg | Hpos].
  - rewrite Z.testbit_neg_r by assumption. symmetry. apply Z.eqb_neq. lia.
  - change 8 with (2 ^ 3). rewrite Z.pow2_bits_eqb by lia. apply Z.eqb_sym.
Qed.

Lemma SysTick_Handler_PF3 (r : regs) :
  PF3 (SysTick_Handler r) = negb (PF3 r).
Proof.
  unfold PF3, SysTick_Handler. cbn [GPIOF_DATA set_DATA].
  rewrite Z.lxor_spec, testbit_8. apply xorb_true_r.
Qed.

Lemma SysTick_Handler_twice (r : regs) :
  SysTick_Handler (SysTick_Handler r) = r.
Proof.
  destruct r. unfold SysTick_Handler, set_DATA. cbn. f_equal.
  rewrite Z.lxor_assoc. change (Z.lxor 8 8) with 0. apply Z.lxor_0_r.
Qed.

Lemma notified_last (n : nat) :
  forall r, notified (S n) r = SysTick_Handler (notified n r).
Proof.
  induction n as [| n IH]; intros r.
  - reflexivity.
  - change (notified (S (S n)) r) with (notified (S n) (SysTick_Handler r)).
    rewrite IH. reflexivity.
Qed.

Lemma odd_mod2 (n : nat) : (n mod 2 =? 1)%nat = Nat.odd n.
Proof.
  rewrite <- Nat.bit0_mod, Nat.bit0_odd.
  destruct (Nat.odd n); reflexivity.
Qed.

(** C4 (parity under interrupts).  After [N] runs of the SysTick handler
    from any register state, PF3 is its initial level exclusive-or
    [N mod 2 = 1]; two runs give back the initial register state; and the
    reload value set in [main], 15999999, makes one period 16000000
    clock ticks. *)
Theorem interrupt_parity (N : nat) (r : regs) :
  PF3 (notified N r) = xorb (PF3 r) (N mod 2 =? 1)%nat /\
  notified 2 r = r /\
  period_ticks (main_init r) = 16000000.
Proof.
  split; [| split].
  - rewrite odd_mod2. induction N as [| N IH].
    + simpl. now rewrite xorb_false_r.
    + rewrite notified_last, SysTick_Handler_PF3, IH, Nat.odd_succ.
      rewrite <- Nat.negb_odd.
      destruct (PF3 r), (Nat.odd N); reflexivity.
  - apply SysTick_Handler_twice.
  - reflexivity.
Qed.

(** C9 (frame of the handler).  One run of the handler is an exclusive or
    of the data register with 8: bit 3 is inverted, every other bit of
    the data register keeps its value, and no other register changes. *)
Theorem SysTick_Handler_frame (r : regs) :
  GPIOF_DATA (SysTick_Handler r) = Z.lxor (GPIOF_DATA r) 8 /\
  (forall n, Z.testbit (GPIOF_DATA (SysTick_Handler r)) n
             = xorb (Z.testbit (GPIOF_DATA r) n) (n =? 3)) /\
  SYSCTL_RCGCGPIO (SysTick_Handler r) = SYSCTL_RCGCGPIO r /\
  GPIOF_LOCK (SysTick_Handler r) = GPIOF_LOCK r /\
  GPIOF_CR (SysTick_Handler r) = GPIOF_CR r /\
  GPIOF_PUR (SysTick_Handler r) = GPIOF_PUR r /\
  GPIOF_DIR (SysTick_Handler r) = GPIOF_DIR r /\
  GPIOF_DEN (SysTick_Handler r) = GPIOF_DEN r /\
  SysTick_LOAD (SysTick_Handler r) = SysTick_LOAD r /\
  SysTick_CTRL (SysTick_Handler r) = SysTick_CTRL r /\
  SysTick_VAL (SysTick_Handler r) = SysTick_VAL r.
Proof.
  split; [reflexivity |]. split.
  - intros n. unfold SysTick_Handler. cbn [GPIOF_DATA set_DATA].
    now rewrite Z.lxor_spec, testbit_8.
  - repeat split.
Qed.

End Interrupt.

(** ** LESSON5: the polled toggle *)

Section Polled.

Import Lesson5.

(** The loop toggles PF3 at the reads that show the count flag and at no
    other. *)
Lemma polled_toggles (reads : list Z) :
  forall r, PF3 (run reads r) = xorb (PF3 r) (Nat.odd (flagged reads)).
Proof.
  induction reads as [| c reads IH]; intros r.
  - simpl. now rewrite xorb_false_r.
  - cbn [run]. rewrite IH. unfold flagged, loop_body. cbn [filter].
    destruct (Z.land c COUNTFLAG =? 0); cbn [negb length].
    + reflexivity.
    + rewrite Nat.odd_succ, <- Nat.negb_odd.
      change (set_DATA (Z.lxor (GPIOF_DATA r) 8) r)
        with (Lesson6.SysTick_Handler r).
      rewrite SysTick_Handler_PF3.
      destruct (PF3 r), (Nat.odd _); reflexivity.
Qed.

End Polled.

(** ** LESSON2: the button mirrored on the red LED *)

Section Mirror.

Import Lesson2.

Lemma led_word_read (r : regs) (l : level) :
  led_word (read_DATA r l)
  = match l with Low => 0x1FFFFFFF | High => 0x1FFFFFFD end.
Proof.
  unfold led_word. cbv zeta. rewrite button_state. now destruct l.
Qed.

(** C10 (input polling).  Each iteration stores
    [(~(DATA & 0x10)) >> 3] over the whole data register: afterwards PF1
    is 1 exactly when bit 4 of the word read was 0 (button pressed), and
    the word stored is 0x1FFFFFFF or 0x1FFFFFFD according to the button
    alone, so none of the register's previous bits is preserved. *)
Theorem input_polling_overwrites (pf4 : level) (r : regs) :
  GPIOF_DATA (loop_body pf4 r)
  = Z.shiftr (Word.not32 (Z.land (read_DATA r pf4) 0x10)) 3 /\
  PF1 (loop_body pf4 r) = negb (Z.testbit (read_DATA r pf4) 4) /\
  GPIOF_DATA (loop_body pf4 r)
  = match pf4 with Low => 0x1FFFFFFF | High => 0x1FFFFFFD end /\
  (forall r', GPIOF_DATA (loop_body pf4 r') = GPIOF_DATA (loop_body pf4 r)).
Proof.
  assert (E : forall r0, GPIOF_DATA (loop_body pf4 r0)
              = match pf4 with Low => 0x1FFFFFFF | High => 0x1FFFFFFD end).
  { intros r0. unfold loop_body. cbn [GPIOF_DATA set_DATA].
    apply led_word_read. }
  split; [reflexivity |]. split; [| split].
  - unfold PF1. rewrite E, testbit_read_DATA. now destruct pf4.
  - apply E.
  - intros r'. now rewrite !E.
Qed.

End Mirror.

(** * Further properties of the programs *)

Lemma same_but_DATA_refl (r : regs) : same_but_DATA r r.
Proof. repeat split. Qed.

Lemma same_but_DATA_trans (a b c : regs) :
  same_but_DATA a b -> same_but_DATA b c -> same_but_DATA a c.
Proof.
  unfold same_but_DATA. intros H1 H2.
  repeat match goal with H : _ /\ _ |- _ => destruct H end.
  repeat split; congruence.
Qed.

Lemma same_but_DATA_set (v : Z) (r : regs) : same_but_DATA r (set_DATA v r).
Proof. repeat split. Qed.

(** ** LESSON3: the debounce loop on arbitrary input *)

Section DebounceRuns.

Import Lesson3.

Lemma armed_fired (r : regs) : armed (mkMachine r 1) = true.
Proof. reflexivity. Qed.

Lemma armed_cleared (r : regs) : armed (mkMachine r 0) = false.
Proof. reflexivity. Qed.

(** X1.  On any sequence of polls and from any state, the number of
    iterations that toggle PF1 is the number of falling edges of the
    polled button level: the polls that see the button down while the
    poll before saw it at rest (for the first poll: while the latch is
    clear).  The level after the delay plays no part. *)
Theorem toggles_count_falling_edges (ins : list sample) (m : machine) :
  toggles ins m = Some (falling_edges (armed m) ins).
Proof.
  revert m. induction ins as [| s ins IH]; intros m.
  - reflexivity.
  - cbn [toggles falling_edges]. destruct (at_poll s) eqn:E.
    + destruct (Z.eq_dec (flag m) 0) as [Hf | Hf].
      * rewrite (loop_body_fires s m E Hf), IH, armed_fired.
        unfold armed. rewrite Hf. cbn [Z.eqb negb].
        unfold toggled. cbn [io]. rewrite fired_PF1.
        now destruct (PF1 (io m)).
      * rewrite (loop_body_latched s m E Hf), IH.
        rewrite toggled_same by reflexivity.
        unfold armed. apply Z.eqb_neq in Hf. rewrite Hf.
        reflexivity.
    + rewrite (loop_body_released s m E), IH, armed_cleared.
      rewrite toggled_same by reflexivity. reflexivity.
Qed.

Lemma loop_body_flag (s : sample) (m : machine) :
  flag m = 0 \/ flag m = 1 ->
  exists m', loop_body s m = Some m' /\
             flag m' = match at_poll s with Low => 1 | High => 0 end.
Proof.
  intros Hf. destruct (at_poll s) eqn:E.
  - destruct Hf as [Hf | Hf].
    + eexists. split; [now apply loop_body_fires | reflexivity].
    + exists m. split; [apply loop_body_latched; [exact E | lia] | exact Hf].
  - eexists. split; [now apply loop_body_released | reflexivity].
Qed.

Lemma run_flag_invariant (ins : list sample) :
  forall m, flag m = 0 \/ flag m = 1 ->
  exists m', run ins m = Some m' /\ (flag m' = 0 \/ flag m' = 1).
Proof.
  induction ins as [| s ins IH]; intros m Hf.
  - exists m. split; [reflexivity | exact Hf].
  - destruct (loop_body_flag s m Hf) as [m1 [H1 F1]].
    cbn [run]. rewrite H1. apply IH.
    destruct (at_poll s); [right | left]; exact F1.
Qed.

(** X2.  After any non-empty run started with [flag] at 0 or 1, [flag]
    records the last poll alone: it is 1 when that poll saw the button
    down and 0 when it saw the button at rest. *)
Theorem flag_follows_last_poll (ins : list sample) (s : sample) (m : machine) :
  flag m = 0 \/ flag m = 1 ->
  exists m', run (ins ++ [s]) m = Some m' /\
             flag m' = match at_poll s with Low => 1 | High => 0 end.
Proof.
  intros Hf. destruct (run_flag_invariant ins m Hf) as [m1 [H1 F1]].
  destruct (loop_body_flag s m1 F1) as [m2 [H2 F2]].
  exists m2. split; [| exact F2].
  rewrite (run_app ins [s] m m1 H1). cbn [run]. now rewrite H2.
Qed.

Lemma flag_follows_last_poll_witness :
  exists m', run ([mkSample Low Low; mkSample High High]
                    ++ [mkSample Low High]) boot = Some m' /\
             flag m' = 1.
Proof.
  apply (flag_follows_last_poll [mkSample Low Low; mkSample High High]
           (mkSample Low High) boot).
  left. reflexivity.
Defined.

Lemma loop_body_frame (s : sample) (m : machine) :
  exists m', loop_body s m = Some m' /\
             same_but_DATA (io m) (io m') /\
             forall n, 29 <= n ->
               Z.testbit (GPIOF_DATA (io m')) n
               = Z.testbit (GPIOF_DATA (io m)) n.
Proof.
  destruct (at_poll s) eqn:E.
  - destruct (Z.eq_dec (flag m) 0) as [Hf | Hf].
    + eexists. split; [now apply loop_body_fires |]. cbn [io].
      split; [apply same_but_DATA_set |].
      intros n Hn. cbn [GPIOF_DATA set_DATA].
      rewrite Z.lxor_spec, toggle_mask_bits, testbit_read_DATA.
      destruct (Z.eqb_spec 4 n); [lia |].
      destruct (Z.ltb_spec n 29); [lia |].
      now rewrite andb_false_r, xorb_false_r.
    + exists m. split; [now apply loop_body_latched |].
      split; [apply same_but_DATA_refl | reflexivity].
  - eexists. split; [now apply loop_body_released |]. cbn [io].
    split; [apply same_but_DATA_refl | reflexivity].
Qed.

(** X3.  Whatever the input, a run of the loop returns and has written
    nothing but the data register (and [flag]): the nine other registers
    are as before, and the data register keeps its bits 29 to 31 (the
    word shifted right by 29 is unchanged). *)
Theorem debounce_run_frame (ins : list sample) (m : machine) :
  exists m', run ins m = Some m' /\
             same_but_DATA (io m) (io m') /\
             Z.shiftr (GPIOF_DATA (io m')) 29
             = Z.shiftr (GPIOF_DATA (io m)) 29.
Proof.
  revert m. induction ins as [| s ins IH]; intros m.
  - exists m. split; [reflexivity |].
    split; [apply same_but_DATA_refl | reflexivity].
  - destruct (loop_body_frame s m) as [m1 [H1 [S1 B1]]].
    destruct (IH m1) as [m2 [H2 [S2 B2]]].
    exists m2. cbn [run]. rewrite H1. split; [exact H2 |].
    split; [exact (same_but_DATA_trans _ _ _ S1 S2) |].
    rewrite B2. apply Z.bits_inj'. intros n Hn.
    rewrite !Z.shiftr_spec by assumption. apply B1. lia.
Qed.

(** X4.  The loop keeps its state well-formed: from a data register that
    is a 32-bit word and a [flag] that is 0 or 1, every run returns with
    a data register that is a 32-bit word and a [flag] that is 0 or 1. *)
Theorem debounce_run_invariant (ins : list sample) (m : machine) :
  Word.in_range (GPIOF_DATA (io m)) -> flag m = 0 \/ flag m = 1 ->
  exists m', run ins m = Some m' /\
             Word.in_range (GPIOF_DATA (io m')) /\
             (flag m' = 0 \/ flag m' = 1).
Proof.
  revert m. induction ins as [| s ins IH]; intros m Hr Hf.
  - exists m. split; [reflexivity |]. split; assumption.
  - destruct (loop_body_flag s m Hf) as [m1 [H1 F1]].
    pose proof (loop_body_in_range s m m1 Hr H1) as R1.
    assert (F1' : flag m1 = 0 \/ flag m1 = 1)
      by (destruct (at_poll s); [right | left]; exact F1).
    destruct (IH m1 R1 F1') as [m2 [H2 [R2 F2]]].
    exists m2. cbn [run]. rewrite H1. split; [exact H2 |].
    split; assumption.
Qed.

Lemma debounce_run_invariant_witness :
  exists m', run [mkSample Low High; mkSample High High; mkSample Low Low]
                 boot = Some m' /\
             Word.in_range (GPIOF_DATA (io m')) /\
             (flag m' = 0 \/ flag m' = 1).
Proof.
  apply (debounce_run_invariant
           [mkSample Low High; mkSample High High; mkSample Low Low] boot).
  - unfold Word.in_range, Word.modulus, Word.bits. simpl. lia.
  - left. reflexivity.
Defined.

Lemma armed_clear (m : machine) : flag m = 0 -> armed m = false.
Proof. intros H. unfold armed. now rewrite H. Qed.

Lemma armed_set (m : machine) : flag m <> 0 -> armed m = true.
Proof. intros H. unfold armed. apply Z.eqb_neq in H. now rewrite H. Qed.

(** X5.  After any run the red LED is at its initial level, inverted
    once per falling edge of the polled button level: PF1 at the end is
    PF1 at the start exclusive-or the parity of the number of falling
    edges. *)
Theorem PF1_after_run (ins : list sample) (m : machine) :
  exists m', run ins m = Some m' /\
             PF1 (io m')
             = xorb (PF1 (io m)) (Nat.odd (falling_edges (armed m) ins)).
Proof.
  revert m. induction ins as [| s ins IH]; intros m.
  - exists m. split; [reflexivity |]. cbn. now rewrite xorb_false_r.
  - cbn [run falling_edges]. destruct (at_poll s) eqn:E.
    + destruct (Z.eq_dec (flag m) 0) as [Hf | Hf].
      * rewrite (loop_body_fires s m E Hf), (armed_clear m Hf).
        match goal with
        | |- exists m', run ins ?x = _ /\ _ => destruct (IH x) as [m2 [H2 P2]]
        end.
        exists m2. split; [exact H2 |].
        rewrite P2, armed_fired. cbn [io]. rewrite fired_PF1.
        rewrite Nat.add_1_l, Nat.odd_succ, <- Nat.negb_odd.
        now destruct (PF1 (io m)), (Nat.odd _).
      * rewrite (loop_body_latched s m E Hf), (armed_set m Hf).
        destruct (IH m) as [m2 [H2 P2]]. exists m2. split; [exact H2 |].
        rewrite P2, (armed_set m Hf). reflexivity.
    + rewrite (loop_body_released s m E).
      destruct (IH (mkMachine (io m) 0)) as [m2 [H2 P2]].
      exists m2. split; [exact H2 |]. rewrite P2, armed_cleared.
      reflexivity.
Qed.

End DebounceRuns.

(** ** The exact length of the counting loop *)

Lemma spin_short (fuel : nat) :
  forall counter i,
    0 <= i <= counter -> counter < Word.modulus ->
    (fuel <= Z.to_nat (counter - i))%nat ->
    spin fuel counter i = None.
Proof.
  induction fuel as [| fuel IH]; intros counter i Hi Hc Hf.
  - reflexivity.
  - simpl. destruct (Z.ltb_spec i counter) as [Hlt | Hge].
    + rewrite (incr_below i counter) by lia. apply IH; lia.
    + lia.
Qed.

(** X6.  [Delay(counter)] performs exactly [counter] increments: a budget
    of [counter] loop tests or fewer does not reach the exit, and any
    larger budget returns with the loop counter at [counter].  The same
    holds for [Delay()] of LESSON1 with its bound of 1000000. *)
Theorem Delay_exact_length (counter : Z) (fuel : nat) :
  Word.in_range counter ->
  Lesson3.Delay fuel counter
  = (if (Z.to_nat counter <? fuel)%nat then Some counter else None) /\
  Lesson1.Delay fuel
  = (if (Z.to_nat Lesson1.DELAY_VALUE <? fuel)%nat
     then Some Lesson1.DELAY_VALUE else None).
Proof.
  intros [H0 H1]. split.
  - unfold Lesson3.Delay. destruct (Nat.ltb_spec (Z.to_nat counter) fuel).
    + apply spin_reaches; lia.
    + apply spin_short; lia.
  - unfold Lesson1.Delay.
    destruct (Nat.ltb_spec (Z.to_nat Lesson1.DELAY_VALUE) fuel) as [H | H];
      unfold Lesson1.DELAY_VALUE in *.
    + apply spin_reaches; unfold Word.modulus, Word.bits; lia.
    + apply spin_short; unfold Word.modulus, Word.bits; lia.
Qed.

Lemma Delay_exact_length_witness :
  Word.in_range 3 /\
  Lesson3.Delay 3%nat 3 = None /\ Lesson3.Delay 4%nat 3 = Some 3.
Proof.
  assert (H : Word.in_range 3)
    by (unfold Word.in_range, Word.modulus, Word.bits; lia).
  split; [exact H |]. split.
  - exact (proj1 (Delay_exact_length 3 3%nat H)).
  - exact (proj1 (Delay_exact_length 3 4%nat H)).
Defined.

(** ** LESSON1: the blink loop *)

Section Blink.

Lemma set_DATA_set_DATA (a b : Z) (r : regs) :
  set_DATA a (set_DATA b r) = set_DATA a r.
Proof. reflexivity. Qed.

Lemma land_disjoint (d a b : Z) :
  Z.land a b = 0 -> Z.land (Z.land d a) b = 0.
Proof. intros H. now rewrite <- Z.land_assoc, H, Z.land_0_r. Qed.

Lemma blink_LED1_word (r : regs) :
  Lesson1.blink_LED1 r = set_DATA Lesson1.LED_ON1 r.
Proof.
  unfold Lesson1.blink_LED1, Lesson1.or_DATA, Lesson1.and_DATA.
  cbn [GPIOF_DATA set_DATA]. rewrite !set_DATA_set_DATA.
  rewrite (land_disjoint _ Lesson1.LED_ON3 Lesson1.LED_ON2) by reflexivity.
  reflexivity.
Qed.

Lemma blink_LED3_word (r : regs) :
  Lesson1.blink_LED3 r = set_DATA Lesson1.LED_ON3 r.
Proof.
  unfold Lesson1.blink_LED3, Lesson1.or_DATA, Lesson1.and_DATA.
  cbn [GPIOF_DATA set_DATA]. rewrite !set_DATA_set_DATA.
  rewrite (land_disjoint _ Lesson1.LED_ON1 Lesson1.LED_ON2) by reflexivity.
  reflexivity.
Qed.

Lemma blink_LED2_word (r : regs) :
  Lesson1.blink_LED2 r = set_DATA Lesson1.LED_ON2 r.
Proof.
  unfold Lesson1.blink_LED2, Lesson1.or_DATA, Lesson1.and_DATA.
  cbn [GPIOF_DATA set_DATA]. rewrite !set_DATA_set_DATA.
  rewrite (land_disjoint _ Lesson1.LED_ON3 Lesson1.LED_ON1) by reflexivity.
  reflexivity.
Qed.

(** X7.  Each group of stores of the blink loop leaves the data register
    equal to the mask of one LED, whatever it held before: the two [&=]
    with different single-bit masks clear the whole word and the [|=]
    then sets one bit.  So exactly one of PF1, PF2, PF3 is lit after
    each group, and no other register is written. *)
Theorem blink_one_LED (r : regs) :
  Lesson1.blink_LED1 r = set_DATA Lesson1.LED_ON1 r /\
  Lesson1.blink_LED3 r = set_DATA Lesson1.LED_ON3 r /\
  Lesson1.blink_LED2 r = set_DATA Lesson1.LED_ON2 r /\
  (PF1 (Lesson1.blink_LED1 r), PF2 (Lesson1.blink_LED1 r),
   PF3 (Lesson1.blink_LED1 r)) = (true, false, false) /\
  (PF1 (Lesson1.blink_LED3 r), PF2 (Lesson1.blink_LED3 r),
   PF3 (Lesson1.blink_LED3 r)) = (false, false, true) /\
  (PF1 (Lesson1.blink_LED2 r), PF2 (Lesson1.blink_LED2 r),
   PF3 (Lesson1.blink_LED2 r)) = (false, true, false).
Proof.
  rewrite blink_LED1_word, blink_LED3_word, blink_LED2_word. repeat split.
Qed.

Lemma call_Delay_returns (fuel : nat) (m : Lesson1.machine) :
  (Z.to_nat Lesson1.DELAY_VALUE < fuel)%nat ->
  Lesson1.call_Delay fuel m
  = Some (Lesson1.mkMachine (Lesson1.io m) Lesson1.DELAY_VALUE).
Proof.
  intros Hf. unfold Lesson1.call_Delay, Lesson1.Delay.
  rewrite (spin_reaches fuel Lesson1.DELAY_VALUE 0).
  - reflexivity.
  - unfold Lesson1.DELAY_VALUE. lia.
  - unfold Lesson1.DELAY_VALUE, Word.modulus, Word.bits. lia.
  - unfold Lesson1.DELAY_VALUE in *. lia.
Qed.

Lemma call_Delay_short (fuel : nat) (m : Lesson1.machine) :
  (fuel <= Z.to_nat Lesson1.DELAY_VALUE)%nat ->
  Lesson1.call_Delay fuel m = None.
Proof.
  intros Hf. unfold Lesson1.call_Delay, Lesson1.Delay.
  rewrite (spin_short fuel Lesson1.DELAY_VALUE 0).
  - reflexivity.
  - unfold Lesson1.DELAY_VALUE. lia.
  - unfold Lesson1.DELAY_VALUE, Word.modulus, Word.bits. lia.
  - unfold Lesson1.DELAY_VALUE in *. lia.
Qed.

(** X8.  One iteration of the blink loop returns exactly when each of
    its calls of [Delay] is given more than 1000000 loop tests; it then
    ends with only the LED of [LED_ON2] lit, [j] at 1000000 and every
    other register as before, whatever the state it started from. *)
Theorem blink_loop_body (fuel : nat) (m : Lesson1.machine) :
  Lesson1.loop_body fuel m
  = if (Z.to_nat Lesson1.DELAY_VALUE <? fuel)%nat
    then Some (Lesson1.mkMachine (set_DATA Lesson1.LED_ON2 (Lesson1.io m))
                                 Lesson1.DELAY_VALUE)
    else None.
Proof.
  unfold Lesson1.loop_body.
  destruct (Nat.ltb_spec (Z.to_nat Lesson1.DELAY_VALUE) fuel) as [Hf | Hf].
  - rewrite (call_Delay_returns fuel _ Hf). cbn [Lesson1.io Lesson1.j].
    rewrite (call_Delay_returns fuel _ Hf). cbn [Lesson1.io Lesson1.j].
    rewrite (call_Delay_returns fuel _ Hf). cbn [Lesson1.io Lesson1.j].
    rewrite blink_LED2_word, blink_LED3_word, blink_LED1_word.
    rewrite !set_DATA_set_DATA. reflexivity.
  - now rewrite (call_Delay_short fuel _ Hf).
Qed.

End Blink.

(** ** The configuration code *)

Section Configuration.

Lemma lor_twice (a b : Z) : Z.lor (Z.lor a b) b = Z.lor a b.
Proof. now rewrite <- Z.lor_assoc, Z.lor_diag. Qed.

Lemma testbit_pow2 (k n : Z) : 0 <= k -> Z.testbit (2 ^ k) n = (n =? k).
Proof.
  intros Hk. destruct (Z_lt_le_dec n 0) as [Hneg | Hpos].
  - rewrite Z.testbit_neg_r by assumption. symmetry. apply Z.eqb_neq. lia.
  - rewrite Z.pow2_bits_eqb by lia. apply Z.eqb_sym.
Qed.

Lemma testbit_lor_pow2 (a k n : Z) :
  0 <= k -> Z.testbit (Z.lor a (2 ^ k)) n = Z.testbit a n || (n =? k).
Proof. intros Hk. now rewrite Z.lor_spec, testbit_pow2. Qed.

(** Two register files with the same ten registers are equal. *)
Lemma regs_ext (a b : regs) :
  SYSCTL_RCGCGPIO a = SYSCTL_RCGCGPIO b ->
  GPIOF_LOCK a = GPIOF_LOCK b ->
  GPIOF_CR a = GPIOF_CR b ->
  GPIOF_PUR a = GPIOF_PUR b ->
  GPIOF_DIR a = GPIOF_DIR b ->
  GPIOF_DEN a = GPIOF_DEN b ->
  GPIOF_DATA a = GPIOF_DATA b ->
  SysTick_LOAD a = SysTick_LOAD b ->
  SysTick_CTRL a = SysTick_CTRL b ->
  SysTick_VAL a = SysTick_VAL b ->
  a = b.
Proof. destruct a, b. cbn. intros. subst. reflexivity. Qed.

Lemma blink_init_word (r : regs) :
  Lesson1.main_init r
  = mkRegs (Z.lor (SYSCTL_RCGCGPIO r) 0x20) (GPIOF_LOCK r) (GPIOF_CR r)
           (GPIOF_PUR r)
           (Z.lor (Z.lor (Z.lor (GPIOF_DIR r) 0x02) 0x04) 0x08)
           (Z.lor (Z.lor (Z.lor (GPIOF_DEN r) 0x02) 0x04) 0x08)
           (GPIOF_DATA r) (SysTick_LOAD r) (SysTick_CTRL r) (SysTick_VAL r).
Proof. apply regs_ext; reflexivity. Qed.

Lemma debounce_init_word (r : regs) :
  Lesson3.main_init r
  = mkRegs (Z.lor (SYSCTL_RCGCGPIO r) 0x20) 0x4C4F434B 0x01
           (Z.lor (GPIOF_PUR r) 0x10) (Z.lor (GPIOF_DIR r) 0x02)
           (Z.lor (GPIOF_DEN r) 0x12)
           (GPIOF_DATA r) (SysTick_LOAD r) (SysTick_CTRL r) (SysTick_VAL r).
Proof. apply regs_ext; reflexivity. Qed.

Lemma polled_init_word (r : regs) :
  Lesson5.main_init r
  = mkRegs (Z.lor (SYSCTL_RCGCGPIO r) 0x20) (GPIOF_LOCK r) (GPIOF_CR r)
           (GPIOF_PUR r) (Z.lor (GPIOF_DIR r) 0x08)
           (Z.lor (GPIOF_DEN r) 0x08) (GPIOF_DATA r) 15999999 5 0.
Proof. apply regs_ext; reflexivity. Qed.

Lemma interrupt_init_word (r : regs) :
  Lesson6.main_init r
  = mkRegs (Z.lor (SYSCTL_RCGCGPIO r) 0x20) (GPIOF_LOCK r) (GPIOF_CR r)
           (GPIOF_PUR r) (Z.lor (GPIOF_DIR r) 0x08)
           (Z.lor (GPIOF_DEN r) 0x08) (GPIOF_DATA r) 15999999 7 0.
Proof. apply regs_ext; reflexivity. Qed.

Lemma or_three_pins (a : Z) :
  Z.lor (Z.lor (Z.lor a 0x02) 0x04) 0x08 = Z.lor a 0x0E.
Proof. now rewrite <- !Z.lor_assoc. Qed.

Lemma blink_init_RCGCGPIO (r : regs) :
  SYSCTL_RCGCGPIO (Lesson1.main_init r) = Z.lor (SYSCTL_RCGCGPIO r) 0x20.
Proof. reflexivity. Qed.

Lemma blink_init_DIR (r : regs) :
  GPIOF_DIR (Lesson1.main_init r) = Z.lor (GPIOF_DIR r) 0x0E.
Proof. exact (or_three_pins (GPIOF_DIR r)). Qed.

Lemma blink_init_DEN (r : regs) :
  GPIOF_DEN (Lesson1.main_init r) = Z.lor (GPIOF_DEN r) 0x0E.
Proof. exact (or_three_pins (GPIOF_DEN r)). Qed.

(** X9.  The configuration of LESSON1 amounts to one [|=] per register:
    bit 5 of the clock gate and bits 1 to 3 of the direction and
    digital-enable registers are set, every other bit of these registers
    is kept, no other register is written (the LEDs are left as found),
    and running the configuration twice is the same as running it
    once. *)
Theorem blink_main_init (r : regs) :
  SYSCTL_RCGCGPIO (Lesson1.main_init r) = Z.lor (SYSCTL_RCGCGPIO r) 0x20 /\
  GPIOF_DIR (Lesson1.main_init r) = Z.lor (GPIOF_DIR r) 0x0E /\
  GPIOF_DEN (Lesson1.main_init r) = Z.lor (GPIOF_DEN r) 0x0E /\
  GPIOF_DATA (Lesson1.main_init r) = GPIOF_DATA r /\
  GPIOF_LOCK (Lesson1.main_init r) = GPIOF_LOCK r /\
  GPIOF_CR (Lesson1.main_init r) = GPIOF_CR r /\
  GPIOF_PUR (Lesson1.main_init r) = GPIOF_PUR r /\
  SysTick_LOAD (Lesson1.main_init r) = SysTick_LOAD r /\
  SysTick_CTRL (Lesson1.main_init r) = SysTick_CTRL r /\
  SysTick_VAL (Lesson1.main_init r) = SysTick_VAL r /\
  Lesson1.main_init (Lesson1.main_init r) = Lesson1.main_init r.
Proof.
  split; [apply blink_init_RCGCGPIO |].
  split; [apply blink_init_DIR |]. split; [apply blink_init_DEN |].
  do 7 (split; [reflexivity |]).
  rewrite (blink_init_word (Lesson1.main_init r)), (blink_init_word r).
  fields. rewrite !or_three_pins, !lor_twice. reflexivity.
Qed.

Lemma debounce_init_RCGCGPIO (r : regs) :
  SYSCTL_RCGCGPIO (Lesson3.main_init r) = Z.lor (SYSCTL_RCGCGPIO r) (2 ^ 5).
Proof. reflexivity. Qed.

Lemma debounce_init_PUR (r : regs) :
  GPIOF_PUR (Lesson3.main_init r) = Z.lor (GPIOF_PUR r) (2 ^ 4).
Proof. reflexivity. Qed.

Lemma debounce_init_DIR (r : regs) :
  GPIOF_DIR (Lesson3.main_init r) = Z.lor (GPIOF_DIR r) (2 ^ 1).
Proof. reflexivity. Qed.

Lemma debounce_init_DEN (r : regs) :
  GPIOF_DEN (Lesson3.main_init r)
  = Z.lor (Z.lor (GPIOF_DEN r) (2 ^ 1)) (2 ^ 4).
Proof.
  change (GPIOF_DEN (Lesson3.main_init r)) with (Z.lor (GPIOF_DEN r) 0x12).
  now rewrite <- Z.lor_assoc.
Qed.

(** X10.  The configuration of LESSON3, which is also that of LESSON2,
    only sets bits: in the clock gate bit 5, in the pull-up register
    bit 4, in the direction register bit 1, in the digital-enable
    register bits 1 and 4, every other bit of these registers keeping
    its value; in particular the direction of PF4 is left as found.
    The data register and the SysTick registers are not written, and
    running the configuration twice is the same as running it once. *)
Theorem debounce_main_init (r : regs) :
  Lesson2.main_init r = Lesson3.main_init r /\
  (forall n, Z.testbit (SYSCTL_RCGCGPIO (Lesson3.main_init r)) n
             = Z.testbit (SYSCTL_RCGCGPIO r) n || (n =? 5)) /\
  (forall n, Z.testbit (GPIOF_PUR (Lesson3.main_init r)) n
             = Z.testbit (GPIOF_PUR r) n || (n =? 4)) /\
  (forall n, Z.testbit (GPIOF_DIR (Lesson3.main_init r)) n
             = Z.testbit (GPIOF_DIR r) n || (n =? 1)) /\
  (forall n, Z.testbit (GPIOF_DEN (Lesson3.main_init r)) n
             = Z.testbit (GPIOF_DEN r) n || ((n =? 1) || (n =? 4))) /\
  GPIOF_LOCK (Lesson3.main_init r) = 0x4C4F434B /\
  GPIOF_CR (Lesson3.main_init r) = 0x01 /\
  GPIOF_DATA (Lesson3.main_init r) = GPIOF_DATA r /\
  SysTick_LOAD (Lesson3.main_init r) = SysTick_LOAD r /\
  SysTick_CTRL (Lesson3.main_init r) = SysTick_CTRL r /\
  SysTick_VAL (Lesson3.main_init r) = SysTick_VAL r /\
  Lesson3.main_init (Lesson3.main_init r) = Lesson3.main_init r.
Proof.
  split; [reflexivity |].
  split.
  { intros n. rewrite debounce_init_RCGCGPIO. apply testbit_lor_pow2. lia. }
  split.
  { intros n. rewrite debounce_init_PUR. apply testbit_lor_pow2. lia. }
  split.
  { intros n. rewrite debounce_init_DIR. apply testbit_lor_pow2. lia. }
  split.
  { intros n. rewrite debounce_init_DEN.
    rewrite !testbit_lor_pow2 by lia. now rewrite orb_assoc. }
  do 6 (split; [reflexivity |]).
  rewrite (debounce_init_word (Lesson3.main_init r)), (debounce_init_word r).
  fields. rewrite !lor_twice. reflexivity.
Qed.

Lemma polled_init_DIR (r : regs) :
  GPIOF_DIR (Lesson5.main_init r) = Z.lor (GPIOF_DIR r) (2 ^ 3).
Proof. reflexivity. Qed.

Lemma polled_init_DEN (r : regs) :
  GPIOF_DEN (Lesson5.main_init r) = Z.lor (GPIOF_DEN r) (2 ^ 3).
Proof. reflexivity. Qed.

Lemma polled_init_RCGCGPIO (r : regs) :
  SYSCTL_RCGCGPIO (Lesson5.main_init r) = Z.lor (SYSCTL_RCGCGPIO r) 0x20.
Proof. reflexivity. Qed.

Lemma polled_init_twice (r : regs) :
  Lesson5.main_init (Lesson5.main_init r) = Lesson5.main_init r.
Proof.
  rewrite (polled_init_word (Lesson5.main_init r)), (polled_init_word r).
  fields. rewrite !lor_twice. reflexivity.
Qed.

Lemma interrupt_init_as_polled (r : regs) :
  Lesson6.main_init r = set_CTRL 7 (Lesson5.main_init r).
Proof. now rewrite interrupt_init_word, polled_init_word. Qed.

(** X11.  The configurations of LESSON5 and LESSON6 differ in the word
    stored to [SysTick->CTRL] alone (5 against 7, that is bit 1, the
    interrupt enable).  Both store the reload value 15999999 and clear
    the current value whatever these registers held, set bit 3 of the
    direction and digital-enable registers keeping their other bits,
    leave the data register alone, and give the same result when run
    twice. *)
Theorem systick_main_init (r : regs) :
  Lesson6.main_init r = set_CTRL 7 (Lesson5.main_init r) /\
  SysTick_CTRL (Lesson5.main_init r) = 5 /\
  Z.lxor (SysTick_CTRL (Lesson5.main_init r))
         (SysTick_CTRL (Lesson6.main_init r)) = 2 /\
  SysTick_LOAD (Lesson5.main_init r) = 15999999 /\
  SysTick_VAL (Lesson5.main_init r) = 0 /\
  (forall n, Z.testbit (GPIOF_DIR (Lesson5.main_init r)) n
             = Z.testbit (GPIOF_DIR r) n || (n =? 3)) /\
  (forall n, Z.testbit (GPIOF_DEN (Lesson5.main_init r)) n
             = Z.testbit (GPIOF_DEN r) n || (n =? 3)) /\
  GPIOF_DATA (Lesson5.main_init r) = GPIOF_DATA r /\
  Lesson5.main_init (Lesson5.main_init r) = Lesson5.main_init r /\
  Lesson6.main_init (Lesson6.main_init r) = Lesson6.main_init r.
Proof.
  split; [apply interrupt_init_as_polled |].
  do 4 (split; [reflexivity |]).
  split.
  { intros n. rewrite polled_init_DIR. apply testbit_lor_pow2. lia. }
  split.
  { intros n. rewrite polled_init_DEN. apply testbit_lor_pow2. lia. }
  split; [reflexivity |].
  split; [apply polled_init_twice |].
  rewrite (interrupt_init_word (Lesson6.main_init r)), (interrupt_init_word r).
  fields. rewrite !lor_twice. reflexivity.
Qed.

End Configuration.

(** ** LESSON2: the mirror loop over time *)

Section MirrorRuns.

Lemma set_DATA_same (r : regs) : set_DATA (GPIOF_DATA r) r = r.
Proof. now destruct r. Qed.

Lemma mirror_loop_body (l : level) (v : Z) (r : regs) :
  Lesson2.loop_body l (set_DATA v r)
  = set_DATA (match l with Low => 0x1FFFFFFF | High => 0x1FFFFFFD end) r.
Proof.
  unfold Lesson2.loop_body. rewrite led_word_read. reflexivity.
Qed.

Lemma mirror_run_shape (ins : list level) :
  forall r, exists v, Lesson2.run ins r = set_DATA v r.
Proof.
  induction ins as [| l ins IH]; intros r.
  - exists (GPIOF_DATA r). symmetry. apply set_DATA_same.
  - cbn [Lesson2.run]. destruct (IH (Lesson2.loop_body l r)) as [v Hv].
    exists v. rewrite Hv. reflexivity.
Qed.

Lemma mirror_run_app (a b : list level) :
  forall r, Lesson2.run (a ++ b) r = Lesson2.run b (Lesson2.run a r).
Proof.
  induction a as [| l a IH]; intros r; [reflexivity |].
  cbn [Lesson2.run app]. apply IH.
Qed.

(** X12.  The mirror loop has no memory: after any run, the register
    file is the initial one with the data register holding 0x1FFFFFFF if
    the last iteration read the button down, and 0x1FFFFFFD if it read
    the button at rest; so the red LED shows the last reading, and
    nothing read or stored by earlier iterations matters. *)
Theorem mirror_run_last (ins : list level) (l : level) (r : regs) :
  Lesson2.run (ins ++ [l]) r
  = set_DATA (match l with Low => 0x1FFFFFFF | High => 0x1FFFFFFD end) r /\
  PF1 (Lesson2.run (ins ++ [l]) r)
  = match l with Low => true | High => false end.
Proof.
  assert (E : Lesson2.run (ins ++ [l]) r
              = set_DATA (match l with
                          | Low => 0x1FFFFFFF | High => 0x1FFFFFFD end) r).
  { rewrite mirror_run_app. destruct (mirror_run_shape ins r) as [v Hv].
    rewrite Hv. cbn [Lesson2.run]. apply mirror_loop_body. }
  split; [exact E |]. rewrite E. now destruct l.
Qed.

End MirrorRuns.

(** ** LESSON5 and LESSON6: the two toggling schemes *)

Section Schedulers.

Lemma notified_add (a b : nat) :
  forall r, Lesson6.notified (a + b) r = Lesson6.notified b (Lesson6.notified a r).
Proof.
  induction a as [| a IH]; intros r; [reflexivity |].
  cbn [Lesson6.notified Nat.add]. apply IH.
Qed.

Lemma notified_even_odd (N : nat) (r : regs) :
  Lesson6.notified N r
  = if Nat.even N then r else Lesson6.SysTick_Handler r.
Proof.
  induction N as [| N IH].
  - reflexivity.
  - rewrite notified_last, IH, Nat.even_succ, <- Nat.negb_even.
    destruct (Nat.even N); cbn [negb].
    + reflexivity.
    + apply SysTick_Handler_twice.
Qed.

(** X13.  Under notifications the whole register file has period two:
    after an even number of runs of the handler it is the initial one,
    after an odd number it is the initial one with the data register
    exclusive-or 8; and serving [a + b] notifications is serving [a] and
    then [b]. *)
Theorem notified_period_two (a b : nat) (r : regs) :
  Lesson6.notified a r
  = (if Nat.even a then r else set_DATA (Z.lxor (GPIOF_DATA r) 8) r) /\
  Lesson6.notified (a + b) r = Lesson6.notified b (Lesson6.notified a r) /\
  Lesson6.notified (a + 2 * b) r = Lesson6.notified a r.
Proof.
  split; [apply notified_even_odd |]. split; [apply notified_add |].
  rewrite !notified_even_odd.
  rewrite Nat.even_add_mul_2. reflexivity.
Qed.

Lemma polled_run_notified (reads : list Z) :
  forall r,
    Lesson5.run reads r = Lesson6.notified (Lesson5.flagged reads) r.
Proof.
  induction reads as [| c reads IH]; intros r.
  - reflexivity.
  - cbn [Lesson5.run]. rewrite IH.
    unfold Lesson5.flagged, Lesson5.loop_body. cbn [filter].
    destruct (Z.land c Lesson5.COUNTFLAG =? 0); reflexivity.
Qed.

(** X14.  The polled loop does what the interrupt scheme does: a run of
    the LESSON5 loop over any sequence of words read from
    [SysTick->CTRL] leaves the register file that one run of the LESSON6
    handler per read showing bit 16 would leave.  Reads without bit 16
    change nothing, and no bit of the word other than bit 16 matters. *)
Theorem polled_run_as_notifications (reads : list Z) (r : regs) :
  Lesson5.run reads r = Lesson6.notified (Lesson5.flagged reads) r /\
  Lesson5.run (map (fun c => Z.land c Lesson5.COUNTFLAG) reads) r
  = Lesson5.run reads r.
Proof.
  split; [apply polled_run_notified |].
  rewrite !polled_run_notified. f_equal.
  unfold Lesson5.flagged. induction reads as [| c reads IH].
  - reflexivity.
  - cbn [map filter].
    rewrite <- Z.land_assoc, Z.land_diag.
    destruct (Z.land c Lesson5.COUNTFLAG =? 0); cbn [negb length];
      now rewrite IH.
Qed.

(** X15.  After a run of the polled loop the green LED is at its initial
    level exclusive-or the parity of the number of reads that showed
    bit 16, and every other register is as before. *)
Theorem polled_PF3_parity (reads : list Z) (r : regs) :
  PF3 (Lesson5.run reads r)
  = xorb (PF3 r) (Nat.odd (Lesson5.flagged reads)) /\
  same_but_DATA r (Lesson5.run reads r).
Proof.
  split; [apply polled_toggles |].
  rewrite polled_run_notified, notified_even_odd.
  destruct (Nat.even _); [apply same_but_DATA_refl |].
  apply same_but_DATA_set.
Qed.

End Schedulers.
